(** * The trade-quoting state machine of [useRouterTrade]

    A shallow embedding of [src/hooks/routing/useRouterTrade.ts]: the
    visibility/support gate, the orientation of the currency pair, the
    supported-chain check, the block-validity filter and the trade state
    resolver (the callback of the final [useMemo]).

    The hook throws in one place and catches in one place, so fallible
    code lives in the error monad [sum Exn] of ExtLib: [raise] is
    [throw], [catch] is [try]/[catch], [inl] is an exception reaching the
    caller and [inr] a normal return.  [CurrencyAmount.fromRawAmount]
    throws on a quote that is not an integer or does not fit 256 bits,
    and the hook calls it outside the [try], so its exception leaves the
    hook; the hooks and the helpers of [state/routing/utils] called
    outside the [try] are taken at their TypeScript signatures.

    The second part embeds [src/components/Swap/Input.tsx]. *)

From Stdlib Require Import ZArith String List Bool Lia.
From Stdlib Require Import DecimalString.
From ExtLib Require Import Structures.Monad Structures.MonadExc.
From ExtLib Require Import Data.Monads.EitherMonad.
Import ListNotations.
Import MonadNotation.
Local Open Scope monad_scope.
Local Open Scope Z_scope.

(** ** Data model *)

(** [TradeType] of [@uniswap/sdk-core]. *)
Inductive TradeType : Type :=
| EXACT_INPUT
| EXACT_OUTPUT.

(** [TradeState] of [state/routing/types]. *)
Inductive TradeState : Type :=
| INVALID
| LOADING
| NO_ROUTE_FOUND
| SYNCING
| VALID.

(** A currency; the hook reads only [chainId], a JavaScript number. *)
Record Currency : Type := {
  chainId : Z;
  address : string;
  decimals : Z;
  symbol : string
}.

(** A currency amount: a fraction tied to its currency. *)
Record CurrencyAmount : Type := {
  currency : Currency;
  numerator : Z;
  denominator : Z
}.

(** What can be thrown.  [RouterUnsupportedChain c] stands for
    [new Error(`Router does not support this chain (chainId: ${c}).`)];
    [Thrown] is any exception raised by a collaborator. *)
Inductive Exn : Type :=
| RouterUnsupportedChain (chain : Z)
| Thrown (message : string).

(** The raw response of the quoting service.  [ident] is the identity of
    the JavaScript object, which is what [!==] compares. *)
Module Quote.
Record t {RouteDescription : Type} : Type := {
  ident : nat;
  blockNumber : string;
  quote : string;
  gasUseEstimateUSD : string;
  route : RouteDescription
}.
Arguments t : clear implicits.
End Quote.

(** The collaborators of the hook that are plain values or functions:
    the shapes it only passes along, the allow-list of
    [clientSideSmartOrderRouter], JavaScript's [Number] on a block-number
    string ([None] is [NaN]), [CurrencyAmount.fromRawAmount] and the two
    functions of [state/routing/utils].  [fromRawAmount] and
    [transformRoutesToTrade] can throw: [inl] is what they throw. *)
Class Externals : Type := {
  RouteDescription : Type;
  Route : Type;
  Trade : Type;
  QueryArgs : Type;
  AUTO_ROUTER_SUPPORTED_CHAINS : list Z;
  Number : string -> option Z;
  fromRawAmount : Currency -> string -> Exn + CurrencyAmount;
  computeRoutes :
    option Currency -> option Currency -> TradeType ->
    option (Quote.t RouteDescription) -> option (list Route);
  transformRoutesToTrade :
    list Route -> TradeType -> option CurrencyAmount -> Exn + Trade
}.

Section Model.
Context {ext : Externals}.

Definition GetQuoteResult : Type := Quote.t RouteDescription.

(** The object handed to [useRouterArguments] (lines 64-71). *)
Record RouterArguments : Type := {
  tokenIn : option Currency;
  tokenOut : option Currency;
  amount : option CurrencyAmount;
  argTradeType : TradeType;
  routerUrl : option string;
  providerUrl : string
}.

(** The four signals read from [useGetQuoteQuery] (line 73). *)
Record QuoteQuery : Type := {
  queryIsFetching : bool;
  queryIsError : bool;
  data : option GetQuoteResult;
  currentData : option GetQuoteResult
}.

(** What the hooks called by [useRouterTrade] return in one render.
    [useGetQuoteQuery None] is the call with [skipToken];
    [libraryUrl] is [library?.connection.url]. *)
Record Hooks : Type := {
  useAutoRouterSupported : bool;
  useIsWindowVisible : bool;
  useDebounce :
    option CurrencyAmount * option Currency ->
    option CurrencyAmount * option Currency;
  libraryUrl : option string;
  useRouterArguments : RouterArguments -> option QueryArgs;
  useGetQuoteQuery : option QueryArgs -> QuoteQuery;
  useIsValidBlock : Z -> bool;
  useStablecoinAmountFromFiatValue : option string -> option CurrencyAmount
}.

(** The value of the hook: [{ state, trade }]. *)
Record TradeResult : Type := {
  state : TradeState;
  trade : option Trade
}.

(** Line 20. *)
Definition INVALID_TRADE : TradeResult :=
  {| state := INVALID; trade := None |}.

(** The dependency list of the final [useMemo] (lines 130-141): the
    inputs of the resolver. *)
Record Deps : Type := {
  currencyIn : option Currency;
  currencyOut : option Currency;
  quoteResult : option GetQuoteResult;
  isFetching : bool;
  tradeType : TradeType;
  isError : bool;
  route : option (list Route);
  queryArgs : option QueryArgs;
  gasUseEstimateUSD : option CurrencyAmount;
  isSyncing : bool
}.

(** ** The hook, piece by piece *)

(** Line 45: the visibility/support gate. *)
Definition debouncedAmountSpecified
    (autoRouterSupported isWindowVisible : bool)
    (debouncedAmount : option CurrencyAmount) : option CurrencyAmount :=
  if autoRouterSupported && isWindowVisible then debouncedAmount else None.

(** Lines 47-53: [[currencyIn, currencyOut]]. *)
Definition currencies (tt : TradeType)
    (amountSpecified : option CurrencyAmount)
    (debouncedOtherCurrency : option Currency)
    : option Currency * option Currency :=
  match tt with
  | EXACT_INPUT => (option_map currency amountSpecified, debouncedOtherCurrency)
  | EXACT_OUTPUT => (debouncedOtherCurrency, option_map currency amountSpecified)
  end.

(** [AUTO_ROUTER_SUPPORTED_CHAINS.includes(chainId)]. *)
Definition includes (chains : list Z) (c : Z) : bool :=
  existsb (Z.eqb c) chains.

(** Lines 55-58.  [chainId && ...] is false for an absent currency and
    for the number zero. *)
Definition checkChain (cIn : option Currency) : Exn + unit :=
  match cIn with
  | None => ret tt
  | Some c =>
      if negb (chainId c =? 0) && negb (includes AUTO_ROUTER_SUPPORTED_CHAINS (chainId c))
      then raise (RouterUnsupportedChain (chainId c))
      else ret tt
  end.

(** Line 63: [library?.connection.url || '']. *)
Definition providerUrlOf (url : option string) : string :=
  match url with
  | Some u => u
  | None => EmptyString
  end.

(** [Number(data?.blockNumber) || 0]. *)
Definition blockNumberOrZero (d : option GetQuoteResult) : Z :=
  match d with
  | Some q =>
      match Number (Quote.blockNumber q) with
      | Some n => n
      | None => 0
      end
  | None => 0
  end.

(** Line 78: the block-validity filter. *)
Definition filterQuote (isValidBlock : Z -> bool)
    (d : option GetQuoteResult) : option GetQuoteResult :=
  if isValidBlock (blockNumberOrZero d) then d else None.

(** [a !== b] on two possibly undefined objects. *)
Definition strictNotEqual (a b : option GetQuoteResult) : bool :=
  match a, b with
  | None, None => false
  | Some x, Some y => negb (Nat.eqb (Quote.ident x) (Quote.ident y))
  | _, _ => true
  end.

(** Lines 105-111; an exception of [fromRawAmount] is not caught. *)
Definition otherAmount (tt : TradeType) (cIn cOut : Currency)
    (q : option GetQuoteResult) : Exn + option CurrencyAmount :=
  match q with
  | Some r =>
      a <- fromRawAmount
             (match tt with EXACT_INPUT => cOut | EXACT_OUTPUT => cIn end)
             (Quote.quote r) ;;
      ret (Some a)
  | None => ret None
  end.

Definition isNone {A : Type} (o : option A) : bool :=
  match o with
  | Some _ => false
  | None => true
  end.

(** [!route || route.length === 0]. *)
Definition noRoute (r : option (list Route)) : bool :=
  match r with
  | Some l => Nat.eqb (List.length l) 0
  | None => true
  end.

(** Lines 90-129: the callback of the final [useMemo]. *)
Definition resolve (d : Deps) : Exn + TradeResult :=
  match currencyIn d, currencyOut d with
  | Some cIn, Some cOut =>
      if isFetching d then
        ret {| state := LOADING; trade := None |}
      else
        other <- otherAmount (tradeType d) cIn cOut (quoteResult d) ;;
        if isError d || isNone other || noRoute (route d) || isNone (queryArgs d)
        then ret {| state := NO_ROUTE_FOUND; trade := None |}
        else
          catch
            (* [route] is a non-empty array here, by the test above *)
            (t <- transformRoutesToTrade
                    (match route d with Some l => l | None => [] end)
                    (tradeType d) (gasUseEstimateUSD d) ;;
             ret {| state := if isSyncing d then SYNCING else VALID;
                    trade := Some t |})
            (fun _ => ret {| state := INVALID; trade := None |})
  | _, _ => ret {| state := INVALID; trade := None |}
  end.

(** Lines 37-53: the gated amount and [[currencyIn, currencyOut]], from
    the hooks called before the chain check. *)
Definition specifiedOf (h : Hooks)
    (amountSpecified : option CurrencyAmount)
    (otherCurrency : option Currency) : option CurrencyAmount :=
  debouncedAmountSpecified (useAutoRouterSupported h) (useIsWindowVisible h)
    (fst (useDebounce h (amountSpecified, otherCurrency))).

Definition currenciesOf (h : Hooks) (tt : TradeType)
    (amountSpecified : option CurrencyAmount)
    (otherCurrency : option Currency) : option Currency * option Currency :=
  currencies tt (specifiedOf h amountSpecified otherCurrency)
    (snd (useDebounce h (amountSpecified, otherCurrency))).

(** Lines 62-71: the argument of [useRouterArguments]. *)
Definition routerArgumentsOf (h : Hooks) (tt : TradeType) (url : option string)
    (amountSpecified : option CurrencyAmount)
    (otherCurrency : option Currency) : RouterArguments :=
  let pair := currenciesOf h tt amountSpecified otherCurrency in
  {| tokenIn := fst pair;
     tokenOut := snd pair;
     amount := specifiedOf h amountSpecified otherCurrency;
     argTradeType := tt;
     routerUrl := url;
     providerUrl := providerUrlOf (libraryUrl h) |}.

(** Lines 62-88: the inputs of the resolver. *)
Definition depsOf (h : Hooks) (tt : TradeType) (url : option string)
    (amountSpecified : option CurrencyAmount)
    (otherCurrency : option Currency) : Deps :=
  let pair := currenciesOf h tt amountSpecified otherCurrency in
  let args :=
    useRouterArguments h
      (routerArgumentsOf h tt url amountSpecified otherCurrency) in
  let q := useGetQuoteQuery h args in
  let filtered := filterQuote (useIsValidBlock h) (data q) in
  {| currencyIn := fst pair;
     currencyOut := snd pair;
     quoteResult := filtered;
     isFetching := queryIsFetching q;
     tradeType := tt;
     isError := queryIsError q;
     route := computeRoutes (fst pair) (snd pair) tt filtered;
     queryArgs := args;
     gasUseEstimateUSD :=
       useStablecoinAmountFromFiatValue h
         (option_map Quote.gasUseEstimateUSD filtered);
     isSyncing := strictNotEqual (currentData q) (data q) |}.

(** [useRouterTrade] (lines 28-142): the chain check comes before the
    request is built and the fetcher consulted. *)
Definition useRouterTrade (h : Hooks) (tt : TradeType) (url : option string)
    (amountSpecified : option CurrencyAmount)
    (otherCurrency : option Currency) : Exn + TradeResult :=
  checkChain (fst (currenciesOf h tt amountSpecified otherCurrency)) ;;
  resolve (depsOf h tt url amountSpecified otherCurrency).

End Model.

(** ** A concrete world

    One instance of the collaborators and a family of hook results, to
    run the model on. *)
Module Sample.
Local Open Scope string_scope.

(** A trade as the route-to-trade transform builds it. *)
Record SampleTrade : Type := {
  legs : list string;
  kind : TradeType;
  gas : option CurrencyAmount
}.

(** The request key: token identities, raw amount and direction. *)
Record SampleArgs : Type := {
  tokenInAddress : string;
  tokenInChainId : Z;
  tokenOutAddress : string;
  tokenOutChainId : Z;
  rawAmount : Z;
  direction : TradeType
}.

(** A stand-in for [Number] that reads unsigned decimal digits and
    answers [NaN] on every other string. *)
Definition number (s : string) : option Z :=
  option_map Z.of_uint (NilEmpty.uint_of_string s).

Definition MaxUint256 : Z := 2 ^ 256 - 1.

(** A stand-in for [fromRawAmount] that reads unsigned decimal digits
    and throws on every other string and above [MaxUint256]. *)
Definition rawAmountOf (c : Currency) (raw : string) : Exn + CurrencyAmount :=
  match number raw with
  | Some n =>
      if Z.leb n MaxUint256
      then inr {| currency := c; numerator := n; denominator := 1 |}
      else inl (Thrown "Invariant failed: AMOUNT")
  | None => inl (Thrown "Cannot convert to a BigInt")
  end.

(** One route per leg of the description, when everything is there. *)
Definition routesOf (cIn cOut : option Currency) (tt : TradeType)
    (q : option (Quote.t (list string))) : option (list string) :=
  match cIn, cOut, q with
  | Some _, Some _, Some r => Some (Quote.route r)
  | _, _, _ => None
  end.

(** A transform that rejects a leg named "malformed". *)
Definition tradeOf (l : list string) (tt : TradeType)
    (g : option CurrencyAmount) : Exn + SampleTrade :=
  if existsb (String.eqb "malformed") l
  then inl (Thrown "malformed route")
  else inr {| legs := l; kind := tt; gas := g |}.

Definition chains : list Z :=
  [1; 3; 4; 5; 42; 10; 69; 42161; 421611; 137; 80001].

#[local] Instance world : Externals := {|
  RouteDescription := list string;
  Route := string;
  Trade := SampleTrade;
  QueryArgs := SampleArgs;
  AUTO_ROUTER_SUPPORTED_CHAINS := chains;
  Number := number;
  fromRawAmount := rawAmountOf;
  computeRoutes := routesOf;
  transformRoutesToTrade := tradeOf
|}.

Definition sameCurrency (a b : Currency) : bool :=
  Z.eqb (chainId a) (chainId b) && String.eqb (address a) (address b).

(** Modelled from the spec: the Query Argument Builder
    ([hooks/routing/useRouterArguments], not among the sources): "no
    request" when tokenIn, tokenOut or amount is missing or when both
    tokens are the same asset, a request key otherwise. *)
Definition routerArguments (a : RouterArguments) : option SampleArgs :=
  match tokenIn a, tokenOut a, amount a with
  | Some i, Some o, Some amt =>
      if sameCurrency i o then None
      else Some {| tokenInAddress := address i;
                   tokenInChainId := chainId i;
                   tokenOutAddress := address o;
                   tokenOutChainId := chainId o;
                   rawAmount := numerator amt / denominator amt;
                   direction := argTradeType a |}
  | _, _, _ => None
  end.

Definition WETH : Currency :=
  {| chainId := 1; address := "0xC02a"; decimals := 18; symbol := "WETH" |}.
Definition USDC : Currency :=
  {| chainId := 1; address := "0xA0b8"; decimals := 6; symbol := "USDC" |}.
(** A token on a chain the router does not know. *)
Definition CAKE : Currency :=
  {| chainId := 56; address := "0x0E09"; decimals := 18; symbol := "CAKE" |}.
(** A token whose chain id is the number zero. *)
Definition NIL : Currency :=
  {| chainId := 0; address := "0x0000"; decimals := 18; symbol := "NIL" |}.

Definition oneWETH : CurrencyAmount :=
  {| currency := WETH; numerator := 1000000000000000000; denominator := 1 |}.
Definition oneCAKE : CurrencyAmount :=
  {| currency := CAKE; numerator := 1000000000000000000; denominator := 1 |}.
Definition oneNIL : CurrencyAmount :=
  {| currency := NIL; numerator := 1000000000000000000; denominator := 1 |}.

(** The quote fetched for the key K1, at block 1000. *)
Definition quoteK1 : GetQuoteResult :=
  {| Quote.ident := 1%nat;
     Quote.blockNumber := "1000";
     Quote.quote := "1850000000";
     Quote.gasUseEstimateUSD := "4.20";
     Quote.route := ["WETH/USDC 0.05%"] |}.

(** A quote whose route the transform rejects. *)
Definition quoteBad : GetQuoteResult :=
  {| Quote.ident := 2%nat;
     Quote.blockNumber := "1000";
     Quote.quote := "1850000000";
     Quote.gasUseEstimateUSD := "4.20";
     Quote.route := ["malformed"] |}.


(** A quote whose raw amount is not an integer. *)
Definition quoteFraction : GetQuoteResult :=
  {| Quote.ident := 4%nat;
     Quote.blockNumber := "1000";
     Quote.quote := "1850.5";
     Quote.gasUseEstimateUSD := "4.20";
     Quote.route := ["WETH/USDC 0.05%"] |}.

(** The fetcher at rest on a skipped query: nothing in flight, no
    error, the last result kept as [data]. *)
Definition idle (last : option GetQuoteResult) : QuoteQuery :=
  {| queryIsFetching := false; queryIsError := false;
     data := last; currentData := None |}.

(** The fetcher showing the settled result of the active key. *)
Definition settled (q : GetQuoteResult) : QuoteQuery :=
  {| queryIsFetching := false; queryIsError := false;
     data := Some q; currentData := Some q |}.

(** The fetcher just after the key changed: the new fetch is in
    flight, [data] still holds the result of the previous key and there
    is no result for the new one. *)
Definition refetching (previous : GetQuoteResult) : QuoteQuery :=
  {| queryIsFetching := true; queryIsError := false;
     data := Some previous; currentData := None |}.

(** Hook results for a visible (or hidden) window, a fetcher state for
    an active key and a block oracle; the debounced values are
    settled. *)
Definition hooks (supported visible : bool) (active : QuoteQuery)
    (validBlock : Z -> bool) : Hooks :=
  {| useAutoRouterSupported := supported;
     useIsWindowVisible := visible;
     useDebounce := fun v => v;
     libraryUrl := Some "https://rpc.example";
     useRouterArguments := routerArguments;
     useGetQuoteQuery := fun k =>
       match k with
       | Some _ => active
       | None => idle (data active)
       end;
     useIsValidBlock := validBlock;
     useStablecoinAmountFromFiatValue := fun _ => None |}.

(** Resolver inputs with both currencies and a displayed quote. *)
Definition deps (fetching syncing : bool) (q : option GetQuoteResult)
    (k : option SampleArgs) : Deps :=
  {| currencyIn := Some WETH;
     currencyOut := Some USDC;
     quoteResult := q;
     isFetching := fetching;
     tradeType := EXACT_INPUT;
     isError := false;
     route := routesOf (Some WETH) (Some USDC) EXACT_INPUT q;
     queryArgs := k;
     gasUseEstimateUSD := None;
     isSyncing := syncing |}.

Definition keyK2 : SampleArgs :=
  {| tokenInAddress := "0xC02a"; tokenInChainId := 1;
     tokenOutAddress := "0xA0b8"; tokenOutChainId := 1;
     rawAmount := 2000000000000000000; direction := EXACT_INPUT |}.

End Sample.

(** ** The input field of the swap form

    [src/components/Swap/Input.tsx]: [useFormattedFieldAmount] and what
    the [Input] component derives from its hooks before it renders. *)

(** The argument of [equalTo]: another amount or a number. *)
Inductive Comparand : Type :=
| AnAmount (a : CurrencyAmount)
| ANumber (n : Z).

(** The methods of [CurrencyAmount] and the two utilities that the
    component calls: [toSignificant], [toExact], [greaterThan],
    [lessThan], [equalTo], [utils/maxAmountSpend] and
    [utils/formatCurrencyAmount] (amount, significant digits, locale,
    fixed decimals). *)
Class AmountOps : Type := {
  toSignificant : CurrencyAmount -> Z -> string;
  toExact : CurrencyAmount -> string;
  greaterThan : CurrencyAmount -> CurrencyAmount -> bool;
  lessThan : CurrencyAmount -> CurrencyAmount -> bool;
  equalTo : CurrencyAmount -> Comparand -> bool;
  maxAmountSpend : option CurrencyAmount -> option CurrencyAmount;
  formatCurrencyAmount : CurrencyAmount -> Z -> string -> option Z -> string
}.

Module Input.
Section Component.
Context {ops : AmountOps}.

(** Lines 91-101. *)
Definition useFormattedFieldAmount (currencyAmount : option CurrencyAmount)
    (fieldAmount : option string) : string :=
  match fieldAmount with
  | Some s => s
  | None =>
      match currencyAmount with
      | Some a => toSignificant a 6
      | None => EmptyString
      end
  end.

(** What the hooks of the component return in one render (lines
    104-121): [useLingui], [useSwapInfo], [useSwapAmount],
    [useSwapCurrency], [useSwapCurrencyAmount], the [useState] cell that
    holds the handle of the token input ([true] when it is not [null])
    and [useIsSwapFieldIndependent]. *)
Record Hooks : Type := {
  locale : string;
  balance : option CurrencyAmount;
  tradeCurrencyAmount : option CurrencyAmount;
  usdc : option CurrencyAmount;
  error : option string;
  tradeState : TradeState;
  inputAmount : option string;
  inputCurrency : option Currency;
  inputCurrencyAmount : option CurrencyAmount;
  input : bool;
  useIsSwapFieldIndependent : bool
}.

Definition defined {A : Type} (o : option A) : bool :=
  match o with
  | Some _ => true
  | None => false
  end.

(** Truthiness of a string that may be undefined. *)
Definition truthy (s : option string) : bool :=
  match s with
  | Some EmptyString => false
  | Some _ => true
  | None => false
  end.

(** Line 119. *)
Definition isDisabled (h : Hooks) : bool := defined (error h).

(** Line 120. *)
Definition isRouteLoading (h : Hooks) : bool :=
  isDisabled h
  || match tradeState h with LOADING => true | _ => false end.

(** Line 121. *)
Definition isDependentField (h : Hooks) : bool :=
  negb (useIsSwapFieldIndependent h).

(** Line 122. *)
Definition isLoading (h : Hooks) : bool :=
  isRouteLoading h && isDependentField h.

(** Lines 124-127. *)
Definition amount (h : Hooks) : string :=
  useFormattedFieldAmount (tradeCurrencyAmount h) (inputAmount h).

(** Lines 132-137: [undefined] without a balance, and without both
    amounts. *)
Definition insufficientBalance (h : Hooks) : option bool :=
  match balance h with
  | Some b =>
      match inputCurrencyAmount h with
      | Some i => Some (greaterThan i b)
      | None =>
          match tradeCurrencyAmount h with
          | Some t => Some (greaterThan t b)
          | None => None
          end
      end
  | None => None
  end.

(** Lines 139-146. *)
Definition max (h : Hooks) : option string :=
  match maxAmountSpend (balance h), balance h with
  | Some m, Some b =>
      if equalTo m (ANumber 0) || lessThan b m then None
      else if match inputCurrencyAmount h with
              | Some i => equalTo m (AnAmount i)
              | None => false
              end
      then None
      else Some (toExact m)
  | _, _ => None
  end.

(** What a click on the Max button does. *)
Inductive Effect : Type :=
| UpdateInputAmount (value : string)
| Focus.

(** [invariant(condition)] of tiny-invariant. *)
Definition invariant (condition : bool) : Exn + unit :=
  if condition then ret tt else raise (Thrown "Invariant failed"%string).

(** Lines 147-151. *)
Definition onClickMax (h : Hooks) : Exn + list Effect :=
  invariant (truthy (max h)) ;;
  ret (UpdateInputAmount
         (match max h with Some s => s | None => EmptyString end)
       :: (if input h then [Focus] else [])).

(** The [color] of the balance text. *)
Inductive Color : Type :=
| ColorError
| ColorSecondary.

(** The row rendered under [balance && (...)] (lines 168-181). *)
Record BalanceRow : Type := {
  balanceColor : Color;
  balanceText : string;
  maxButton : bool
}.

(** The props of the rendered tree that are computed (lines 153-186);
    [approved] is the constant [mockApproved]. *)
Record View : Type := {
  approved : bool;
  disableHover : bool;
  tokenAmount : string;
  tokenCurrency : option Currency;
  tokenDisabled : bool;
  tokenLoading : bool;
  usdcLoading : bool;
  usdcText : string;
  balanceRow : option BalanceRow
}.

Definition render (h : Hooks) : View :=
  {| approved := true;
     disableHover := isDisabled h || negb (defined (inputCurrency h));
     tokenAmount := amount h;
     tokenCurrency := inputCurrency h;
     tokenDisabled := isDisabled h;
     tokenLoading := isLoading h;
     usdcLoading := isRouteLoading h;
     usdcText :=
       match usdc h with
       | Some u => String.append "$"%string (formatCurrencyAmount u 6 "en"%string (Some 2))
       | None => EmptyString
       end;
     balanceRow :=
       match balance h with
       | Some b =>
           Some {| balanceColor :=
                     match insufficientBalance h with
                     | Some true => ColorError
                     | _ => ColorSecondary
                     end;
                   balanceText := formatCurrencyAmount b 4 (locale h) None;
                   maxButton := truthy (max h) |}
       | None => None
       end |}.

End Component.
End Input.

(** ** The resolver, rule by rule *)

Section Resolver.
Context {ext : Externals}.

Lemma includes_In (l : list Z) (c : Z) : includes l c = true <-> In c l.
Proof.
  unfold includes. rewrite existsb_exists. split.
  - intros [x [Hin Heq]]. apply Z.eqb_eq in Heq. now subst.
  - intros Hin. exists c. split; [assumption | apply Z.eqb_refl].
Qed.

(** The other amount is what [fromRawAmount] makes of the raw quote, in
    the currency of the side that was not specified. *)
Lemma otherAmount_with_quote (tt : TradeType) (cIn cOut : Currency)
    (q : GetQuoteResult) :
  otherAmount tt cIn cOut (Some q)
  = match fromRawAmount
            (match tt with EXACT_INPUT => cOut | EXACT_OUTPUT => cIn end)
            (Quote.quote q) with
    | inr a => inr (Some a)
    | inl e => inl e
    end.
Proof.
  unfold otherAmount. simpl. now destruct (fromRawAmount _ _).
Qed.

(** A returned other amount is there exactly when the quote is. *)
Lemma otherAmount_returned (tt : TradeType) (cIn cOut : Currency)
    (q : option GetQuoteResult) (other : option CurrencyAmount) :
  otherAmount tt cIn cOut q = inr other -> isNone other = isNone q.
Proof.
  destruct q as [q|].
  - rewrite otherAmount_with_quote.
    destruct (fromRawAmount _ _); [discriminate |]. now intros [= <-].
  - simpl. now intros [= <-].
Qed.

(** The other amount throws only what [fromRawAmount] throws on the
    raw quote. *)
Lemma otherAmount_thrown (tt : TradeType) (cIn cOut : Currency)
    (q : option GetQuoteResult) (e : Exn) :
  otherAmount tt cIn cOut q = inl e <->
  exists r,
    q = Some r
    /\ fromRawAmount
         (match tt with EXACT_INPUT => cOut | EXACT_OUTPUT => cIn end)
         (Quote.quote r) = inl e.
Proof.
  destruct q as [q|].
  - rewrite otherAmount_with_quote. split.
    + destruct (fromRawAmount _ _) eqn:Hf; [| discriminate].
      intros [= <-]. now exists q.
    + intros [r [[= <-] ->]]. reflexivity.
  - simpl. split; [discriminate |]. now intros [r [Habs _]].
Qed.

Lemma noRoute_false (r : option (list Route)) :
  noRoute r = false -> exists x l, r = Some (x :: l).
Proof.
  destruct r as [[|x l]|]; simpl; try discriminate.
  intros _. now exists x, l.
Qed.

Lemma noRoute_false_iff (r : option (list Route)) :
  noRoute r = false <-> exists l, r = Some l /\ l <> [].
Proof.
  split.
  - intros H. destruct (noRoute_false r H) as [x [l ->]].
    exists (x :: l). now split.
  - intros [l [-> Hl]]. destruct l; [contradiction | reflexivity].
Qed.

(** The only exception of the chain check, and when it is raised. *)
Lemma checkChain_throws (cIn : option Currency) (e : Exn) :
  checkChain cIn = inl e ->
  exists c, cIn = Some c /\ e = RouterUnsupportedChain (chainId c)
            /\ chainId c <> 0
            /\ includes AUTO_ROUTER_SUPPORTED_CHAINS (chainId c) = false.
Proof.
  unfold checkChain. destruct cIn as [c|]; [| discriminate].
  destruct (Z.eqb_spec (chainId c) 0) as [Hz | Hz]; [discriminate |].
  destruct (includes AUTO_ROUTER_SUPPORTED_CHAINS (chainId c)) eqn:Hl;
    [discriminate |].
  simpl. intros [= <-]. now exists c.
Qed.

Lemma checkChain_unsupported (c : Currency) :
  chainId c <> 0 ->
  includes AUTO_ROUTER_SUPPORTED_CHAINS (chainId c) = false ->
  checkChain (Some c) = inl (RouterUnsupportedChain (chainId c)).
Proof.
  intros Hz Hl. unfold checkChain. apply Z.eqb_neq in Hz.
  now rewrite Hz, Hl.
Qed.

(** The check lets the chain id zero through, whatever the allow-list. *)
Lemma checkChain_zero (c : Currency) :
  chainId c = 0 -> checkChain (Some c) = inr tt.
Proof. unfold checkChain. now intros ->. Qed.

Lemma checkChain_passes_when (cIn : option Currency) :
  cIn = None
  \/ (exists c, cIn = Some c
                /\ (chainId c = 0
                    \/ includes AUTO_ROUTER_SUPPORTED_CHAINS (chainId c)
                       = true)) ->
  checkChain cIn = inr tt.
Proof.
  intros [-> | [c [-> [Hz | Hl]]]]; [reflexivity | |].
  - now apply checkChain_zero.
  - unfold checkChain. rewrite Hl. now rewrite andb_false_r.
Qed.

(** The resolver as a decision table on its inputs. *)
Lemma resolve_table (d : Deps) :
  resolve d =
    match currencyIn d, currencyOut d with
    | Some cIn, Some cOut =>
        if isFetching d
        then inr {| state := LOADING; trade := None |}
        else
          match otherAmount (tradeType d) cIn cOut (quoteResult d) with
          | inl e => inl e
          | inr other =>
              if isError d || isNone other || noRoute (route d)
                 || isNone (queryArgs d)
              then inr {| state := NO_ROUTE_FOUND; trade := None |}
              else
                match transformRoutesToTrade
                        (match route d with Some l => l | None => [] end)
                        (tradeType d) (gasUseEstimateUSD d) with
                | inr t =>
                    inr {| state := if isSyncing d then SYNCING else VALID;
                           trade := Some t |}
                | inl _ => inr INVALID_TRADE
                end
          end
    | _, _ => inr INVALID_TRADE
    end.
Proof.
  unfold resolve.
  destruct (currencyIn d) as [cIn|]; [| reflexivity].
  destruct (currencyOut d) as [cOut|]; [| reflexivity].
  destruct (isFetching d); [reflexivity |].
  destruct (otherAmount (tradeType d) cIn cOut (quoteResult d))
    as [e | other]; [reflexivity |].
  simpl.
  destruct (isError d || isNone other || noRoute (route d)
            || isNone (queryArgs d)); [reflexivity |].
  simpl. now destruct (transformRoutesToTrade _ _ _).
Qed.

(** Rule 1. *)
Lemma resolve_absent (d : Deps) :
  currencyIn d = None \/ currencyOut d = None ->
  resolve d = inr INVALID_TRADE.
Proof.
  unfold resolve. intros [H | H]; rewrite H; [reflexivity |].
  now destruct (currencyIn d).
Qed.

(** Rule 2. *)
Lemma resolve_fetching (d : Deps) (cIn cOut : Currency) :
  currencyIn d = Some cIn -> currencyOut d = Some cOut ->
  isFetching d = true ->
  resolve d = inr {| state := LOADING; trade := None |}.
Proof.
  unfold resolve. intros -> -> ->. reflexivity.
Qed.

(** Rule 3, when [fromRawAmount] throws. *)
Lemma resolve_throws (d : Deps) (cIn cOut : Currency) (e : Exn) :
  currencyIn d = Some cIn -> currencyOut d = Some cOut ->
  isFetching d = false ->
  otherAmount (tradeType d) cIn cOut (quoteResult d) = inl e ->
  resolve d = inl e.
Proof.
  intros Hin Hout Hf Ho. now rewrite resolve_table, Hin, Hout, Hf, Ho.
Qed.

(** Rules 3 and 4. *)
Lemma resolve_no_route (d : Deps) (cIn cOut : Currency)
    (other : option CurrencyAmount) :
  currencyIn d = Some cIn -> currencyOut d = Some cOut ->
  isFetching d = false ->
  otherAmount (tradeType d) cIn cOut (quoteResult d) = inr other ->
  isError d || isNone other || noRoute (route d)
    || isNone (queryArgs d) = true ->
  resolve d = inr {| state := NO_ROUTE_FOUND; trade := None |}.
Proof.
  intros Hin Hout Hf Ho Hg.
  now rewrite resolve_table, Hin, Hout, Hf, Ho, Hg.
Qed.

(** Rules 5 and 6. *)
Lemma resolve_transform (d : Deps) (cIn cOut : Currency)
    (a : CurrencyAmount) (l : list Route) :
  currencyIn d = Some cIn -> currencyOut d = Some cOut ->
  isFetching d = false ->
  otherAmount (tradeType d) cIn cOut (quoteResult d) = inr (Some a) ->
  isError d = false ->
  route d = Some l -> noRoute (route d) = false ->
  isNone (queryArgs d) = false ->
  resolve d =
    match transformRoutesToTrade l (tradeType d) (gasUseEstimateUSD d) with
    | inr t => inr {| state := if isSyncing d then SYNCING else VALID;
                      trade := Some t |}
    | inl _ => inr INVALID_TRADE
    end.
Proof.
  intros Hin Hout Hf Ho He Hr Hn Hk.
  rewrite resolve_table, Hin, Hout, Hf, Ho, He, Hn, Hk. simpl.
  now rewrite Hr.
Qed.

(** Without a quote, rule 4 applies. *)
Lemma resolve_without_quote (d : Deps) (cIn cOut : Currency) :
  currencyIn d = Some cIn -> currencyOut d = Some cOut ->
  isFetching d = false -> quoteResult d = None ->
  resolve d = inr {| state := NO_ROUTE_FOUND; trade := None |}.
Proof.
  intros Hin Hout Hf Hq.
  apply (resolve_no_route d cIn cOut None); try assumption.
  - now rewrite Hq.
  - simpl. now rewrite orb_true_r.
Qed.

(** The resolver throws only what [fromRawAmount] throws, on the quote
    at hand, past rules 1 and 2. *)
Lemma resolve_thrown (d : Deps) (e : Exn) :
  resolve d = inl e <->
  exists cIn cOut q,
    currencyIn d = Some cIn /\ currencyOut d = Some cOut
    /\ isFetching d = false
    /\ quoteResult d = Some q
    /\ fromRawAmount
         (match tradeType d with EXACT_INPUT => cOut | EXACT_OUTPUT => cIn end)
         (Quote.quote q) = inl e.
Proof.
  rewrite resolve_table. split.
  - destruct (currencyIn d) as [cIn|]; [| discriminate].
    destruct (currencyOut d) as [cOut|]; [| discriminate].
    destruct (isFetching d); [discriminate |].
    destruct (otherAmount (tradeType d) cIn cOut (quoteResult d))
      as [e' | other] eqn:Ho.
    + intros [= <-]. apply otherAmount_thrown in Ho.
      destruct Ho as [q [Hq Hf]]. now exists cIn, cOut, q.
    + destruct (isError d || isNone other || noRoute (route d)
                || isNone (queryArgs d)); [discriminate |].
      destruct (transformRoutesToTrade _ _ _); discriminate.
  - intros [cIn [cOut [q [-> [-> [-> [Hq Hf]]]]]]].
    assert (Ho : otherAmount (tradeType d) cIn cOut (quoteResult d) = inl e)
      by (apply otherAmount_thrown; now exists q).
    now rewrite Ho.
Qed.

(** What the resolver returns has one of five shapes. *)
Lemma resolve_returned_shape (d : Deps) (r : TradeResult) :
  resolve d = inr r ->
  r = INVALID_TRADE
  \/ r = {| state := LOADING; trade := None |}
  \/ r = {| state := NO_ROUTE_FOUND; trade := None |}
  \/ (exists t, r = {| state := VALID; trade := Some t |})
  \/ (exists t, r = {| state := SYNCING; trade := Some t |}).
Proof.
  rewrite resolve_table.
  destruct (currencyIn d) as [cIn|]; [| intros [= <-]; now left].
  destruct (currencyOut d) as [cOut|]; [| intros [= <-]; now left].
  destruct (isFetching d); [intros [= <-]; right; now left |].
  destruct (otherAmount (tradeType d) cIn cOut (quoteResult d))
    as [e | other]; [discriminate |].
  destruct (isError d || isNone other || noRoute (route d)
            || isNone (queryArgs d));
    [intros [= <-]; right; right; now left |].
  destruct (transformRoutesToTrade _ _ _) as [e | t];
    [intros [= <-]; now left |].
  intros [= <-]. destruct (isSyncing d); do 3 right; [right | left];
    now exists t.
Qed.

(** The resolver returns as soon as [fromRawAmount] returns on the
    quote it is given, if it gets that far. *)
Lemma resolve_returns (d : Deps) :
  (forall cIn cOut q,
     currencyIn d = Some cIn -> currencyOut d = Some cOut ->
     isFetching d = false -> quoteResult d = Some q ->
     exists a,
       fromRawAmount
         (match tradeType d with EXACT_INPUT => cOut | EXACT_OUTPUT => cIn end)
         (Quote.quote q) = inr a) ->
  exists r, resolve d = inr r.
Proof.
  intros Hraw. destruct (resolve d) as [e | r] eqn:Hres;
    [| now exists r].
  apply resolve_thrown in Hres.
  destruct Hres as [cIn [cOut [q [Hin [Hout [Hf [Hq He]]]]]]].
  destruct (Hraw cIn cOut q Hin Hout Hf Hq) as [a Ha]. congruence.
Qed.

(** What a returned trade says about the inputs of the resolver. *)
Lemma resolve_trade_inversion (d : Deps) (s : TradeState) (t : Trade) :
  resolve d = inr {| state := s; trade := Some t |} ->
  exists cIn cOut q a l,
    currencyIn d = Some cIn /\ currencyOut d = Some cOut
    /\ isFetching d = false /\ isError d = false
    /\ quoteResult d = Some q
    /\ fromRawAmount
         (match tradeType d with EXACT_INPUT => cOut | EXACT_OUTPUT => cIn end)
         (Quote.quote q) = inr a
    /\ route d = Some l /\ l <> []
    /\ isNone (queryArgs d) = false
    /\ transformRoutesToTrade l (tradeType d) (gasUseEstimateUSD d) = inr t
    /\ s = (if isSyncing d then SYNCING else VALID).
Proof.
  rewrite resolve_table.
  destruct (currencyIn d) as [cIn|]; [| discriminate].
  destruct (currencyOut d) as [cOut|]; [| discriminate].
  destruct (isFetching d); [discriminate |].
  destruct (quoteResult d) as [q|];
    [| simpl; rewrite orb_true_r; discriminate].
  rewrite otherAmount_with_quote.
  destruct (fromRawAmount _ _) as [e | a] eqn:Ha; [discriminate |].
  destruct (isError d); [discriminate |]. simpl.
  destruct (noRoute (route d)) eqn:Hn; [discriminate |].
  destruct (isNone (queryArgs d)); [discriminate |].
  apply noRoute_false_iff in Hn. destruct Hn as [l [Hr Hl]].
  rewrite Hr. simpl.
  destruct (transformRoutesToTrade l (tradeType d) (gasUseEstimateUSD d))
    as [e | t'] eqn:Ht; [discriminate |].
  intros [= <- <-]. exists cIn, cOut, q, a, l. repeat split; assumption.
Qed.

Lemma filterQuote_rejected (isValidBlock : Z -> bool)
    (q : option GetQuoteResult) :
  isValidBlock (blockNumberOrZero q) = false ->
  filterQuote isValidBlock q = None.
Proof. unfold filterQuote. now intros ->. Qed.

(** The filter asks the oracle about the block number of the quote, as
    [Number] reads it. *)
Lemma filterQuote_numbered (isValidBlock : Z -> bool) (q : GetQuoteResult)
    (n : Z) :
  Number (Quote.blockNumber q) = Some n ->
  filterQuote isValidBlock (Some q)
  = if isValidBlock n then Some q else None.
Proof.
  intros Hn. unfold filterQuote, blockNumberOrZero. now rewrite Hn.
Qed.


(** While a fetch is in flight the resolver answers INVALID or LOADING,
    so it cannot answer SYNCING. *)
Lemma resolve_fetching_not_SYNCING (d : Deps) (r : TradeResult) :
  isFetching d = true -> resolve d = inr r -> state r <> SYNCING.
Proof.
  intros Hf. unfold resolve. rewrite Hf.
  destruct (currencyIn d), (currencyOut d); intros [= <-]; discriminate.
Qed.

End Resolver.

(** ** Properties of the resolver and of the hook *)

Section Properties.
Context {ext : Externals}.

(** C2: whenever [currencyIn] or [currencyOut] is absent, the resolver
    returns state INVALID with no trade, whatever the fetching flag, the
    error flag, the quote result, the query arguments, the syncing flag
    and the trade type are. *)
Theorem absent_currency_is_INVALID (d : Deps) :
  currencyIn d = None \/ currencyOut d = None ->
  resolve d = inr {| state := INVALID; trade := None |}.
Proof. exact (resolve_absent d). Qed.

(** Without a request and without a fetch in flight, the resolver
    returns by rule 1 or by rule 4 if it returns. *)
Lemma resolve_without_request (d : Deps) (r : TradeResult) :
  queryArgs d = None -> isFetching d = false ->
  resolve d = inr r ->
  r = {| state := NO_ROUTE_FOUND; trade := None |} \/ r = INVALID_TRADE.
Proof.
  intros Hk Hf. rewrite resolve_table, Hk, Hf.
  destruct (currencyIn d) as [cIn|]; [| intros [= <-]; now right].
  destruct (currencyOut d) as [cOut|]; [| intros [= <-]; now right].
  destruct (otherAmount (tradeType d) cIn cOut (quoteResult d))
    as [e | other]; [discriminate |].
  simpl. rewrite !orb_true_r. intros [= <-]. now left.
Qed.

(** C3: when the request is the "no request" sentinel, for which the
    fetcher is called with [skipToken] and reports no fetch in flight,
    every state the hook resolves to is NO_ROUTE_FOUND or INVALID, with
    no trade: it is never LOADING, VALID or SYNCING.  The hook does
    resolve to a state when the chain check passes and [fromRawAmount]
    returns on the quote that the fetcher has kept, if it has one. *)
Theorem no_request_is_NO_ROUTE_FOUND_or_INVALID (h : Hooks)
    (dir : TradeType) (url : option string)
    (a : option CurrencyAmount) (o : option Currency) :
  useRouterArguments h (routerArgumentsOf h dir url a o) = None ->
  queryIsFetching (useGetQuoteQuery h None) = false ->
  (forall r,
     useRouterTrade h dir url a o = inr r ->
     (state r = NO_ROUTE_FOUND \/ state r = INVALID) /\ trade r = None)
  /\ (checkChain (fst (currenciesOf h dir a o)) = inr tt ->
      (forall cIn cOut q,
         currenciesOf h dir a o = (Some cIn, Some cOut) ->
         filterQuote (useIsValidBlock h) (data (useGetQuoteQuery h None))
         = Some q ->
         exists x,
           fromRawAmount
             (match dir with EXACT_INPUT => cOut | EXACT_OUTPUT => cIn end)
             (Quote.quote q) = inr x) ->
      exists r, useRouterTrade h dir url a o = inr r).
Proof.
  intros Hk Hf. unfold useRouterTrade. split.
  - intros r.
    destruct (checkChain (fst (currenciesOf h dir a o))) as [e | []];
      [discriminate |].
    simpl. intros Hres.
    assert (Hk' : queryArgs (depsOf h dir url a o) = None) by exact Hk.
    assert (Hf' : isFetching (depsOf h dir url a o) = false)
      by (unfold depsOf; simpl; now rewrite Hk).
    destruct (resolve_without_request _ r Hk' Hf' Hres) as [-> | ->];
      simpl; auto.
  - intros -> Hraw. simpl. apply resolve_returns.
    unfold depsOf. simpl. rewrite Hk.
    intros cIn cOut q Hin Hout _ Hq. apply (Hraw cIn cOut q); [| assumption].
    destruct (currenciesOf h dir a o). simpl in *. congruence.
Qed.

(** C4: when the construction step is reached, the resolver returns a
    normal value, and if [transformRoutesToTrade] throws, whatever it
    throws, that value is state INVALID with no trade: the exception of
    the construction does not reach the caller.  The step is reached
    with both currencies, no fetch in flight, an other amount that
    [fromRawAmount] returned, no error, a route that is not empty and a
    request. *)
Theorem transform_failure_is_INVALID (d : Deps) (cIn cOut : Currency)
    (a : CurrencyAmount) (l : list Route) :
  currencyIn d = Some cIn -> currencyOut d = Some cOut ->
  isFetching d = false ->
  otherAmount (tradeType d) cIn cOut (quoteResult d) = inr (Some a) ->
  isError d = false ->
  route d = Some l -> noRoute (route d) = false ->
  isNone (queryArgs d) = false ->
  (exists r, resolve d = inr r)
  /\ (forall e,
        transformRoutesToTrade l (tradeType d) (gasUseEstimateUSD d) = inl e ->
        resolve d = inr {| state := INVALID; trade := None |}).
Proof.
  intros Hin Hout Hf Ho He Hr Hn Hk.
  rewrite (resolve_transform d cIn cOut a l) by assumption. split.
  - destruct (transformRoutesToTrade _ _ _); eexists; reflexivity.
  - now intros e ->.
Qed.

(** Outside zero the chain check does what it is there for: a resolved
    [currencyIn] with a chain id that is not zero and is outside the
    allow-list makes the hook throw before the request is built,
    whatever the request builder and the fetcher would answer. *)
Lemma unsupported_chain_throws (h : Hooks) (tt : TradeType)
    (url : option string) (a : option CurrencyAmount) (o : option Currency)
    (c : Currency) :
  fst (currenciesOf h tt a o) = Some c ->
  chainId c <> 0 ->
  includes AUTO_ROUTER_SUPPORTED_CHAINS (chainId c) = false ->
  useRouterTrade h tt url a o = inl (RouterUnsupportedChain (chainId c)).
Proof.
  intros Hc Hz Hl. unfold useRouterTrade.
  now rewrite Hc, (checkChain_unsupported c Hz Hl).
Qed.

(** The chain check lets through an absent currency, the chain id zero
    and every chain of the allow-list. *)
Lemma checkChain_passes (cIn : option Currency) :
  checkChain cIn = inr tt <->
  match cIn with
  | None => True
  | Some c => chainId c = 0 \/ In (chainId c) AUTO_ROUTER_SUPPORTED_CHAINS
  end.
Proof.
  unfold checkChain. destruct cIn as [c|]; [| now split].
  rewrite <- includes_In.
  destruct (Z.eqb_spec (chainId c) 0) as [Hz | Hz];
    destruct (includes AUTO_ROUTER_SUPPORTED_CHAINS (chainId c)); simpl;
    split; intros H; try reflexivity; try discriminate; auto.
  destruct H as [H | H]; [contradiction | discriminate].
Qed.

(** C6: when the block oracle rejects the block number of a fetched
    quote ([Number] of its [blockNumber], or 0 when that is [NaN]), the
    filtered quote is absent and, with both currencies present and no
    fetch in flight, the resolver returns NO_ROUTE_FOUND with no
    trade. *)
Theorem stale_block_is_NO_ROUTE_FOUND (isValidBlock : Z -> bool)
    (q : GetQuoteResult) (d : Deps) (cIn cOut : Currency) :
  isValidBlock
    (match Number (Quote.blockNumber q) with Some n => n | None => 0 end)
  = false ->
  quoteResult d = filterQuote isValidBlock (Some q) ->
  currencyIn d = Some cIn -> currencyOut d = Some cOut ->
  isFetching d = false ->
  filterQuote isValidBlock (Some q) = None
  /\ resolve d = inr {| state := NO_ROUTE_FOUND; trade := None |}.
Proof.
  intros Hb Hq Hin Hout Hf.
  assert (Hnone : filterQuote isValidBlock (Some q) = None)
    by (apply filterQuote_rejected; exact Hb).
  split; [assumption |].
  apply (resolve_without_quote d cIn cOut); congruence.
Qed.

(** The same at the level of the hook: a settled fetch whose block the
    oracle rejects renders NO_ROUTE_FOUND, and one whose block the
    oracle accepts is handed to the resolver as it is. *)
Lemma stale_block_render (h : Hooks) (dir : TradeType) (url : option string)
    (a : option CurrencyAmount) (o : option Currency)
    (cIn cOut : Currency) (q : GetQuoteResult) (n : Z) :
  currenciesOf h dir a o = (Some cIn, Some cOut) ->
  checkChain (Some cIn) = inr tt ->
  let k := useRouterArguments h (routerArgumentsOf h dir url a o) in
  queryIsFetching (useGetQuoteQuery h k) = false ->
  data (useGetQuoteQuery h k) = Some q ->
  Number (Quote.blockNumber q) = Some n ->
  (useIsValidBlock h n = false ->
   useRouterTrade h dir url a o
   = inr {| state := NO_ROUTE_FOUND; trade := None |})
  /\ (useIsValidBlock h n = true ->
      quoteResult (depsOf h dir url a o) = Some q).
Proof.
  intros Hp Hc k Hf Hd Hn. split; intros Hb.
  - unfold useRouterTrade. rewrite Hp. simpl fst. rewrite Hc. simpl.
    apply (resolve_without_quote _ cIn cOut);
      unfold depsOf; simpl; fold k; rewrite ?Hp, ?Hd; try reflexivity;
      try assumption.
    now rewrite (filterQuote_numbered _ q n Hn), Hb.
  - unfold depsOf. simpl. fold k.
    now rewrite Hd, (filterQuote_numbered _ q n Hn), Hb.
Qed.

(** C7: the gate hands the debounced amount on unchanged when the
    window is visible and the auto router is supported, and hands on no
    amount as soon as one of the two is false; in the hook the gated
    amount is the amount of the request, so a closed gate leaves the
    request without an amount. *)
Theorem gate_passes_iff_visible_and_supported
    (supported visible : bool) (debounced : option CurrencyAmount)
    (x : CurrencyAmount) (h : Hooks) (dir : TradeType) (url : option string)
    (a : option CurrencyAmount) (o : option Currency) :
  debouncedAmountSpecified true true debounced = debounced
  /\ debouncedAmountSpecified false visible debounced = None
  /\ debouncedAmountSpecified supported false debounced = None
  /\ (debouncedAmountSpecified supported visible debounced = Some x
      <-> supported = true /\ visible = true /\ debounced = Some x)
  /\ amount (routerArgumentsOf h dir url a o)
     = debouncedAmountSpecified (useAutoRouterSupported h)
         (useIsWindowVisible h) (fst (useDebounce h (a, o))).
Proof.
  split; [reflexivity |].
  split; [reflexivity |].
  split; [now destruct supported |].
  split; [| reflexivity].
  unfold debouncedAmountSpecified.
  destruct supported, visible; simpl; split;
    try discriminate; try tauto;
    intros [Hs [Hv _]]; discriminate.
Qed.

(** A closed gate renders INVALID, unless the chain check on the other
    currency of an exact-output trade throws first. *)
Lemma closed_gate_render (h : Hooks) (dir : TradeType) (url : option string)
    (a : option CurrencyAmount) (o : option Currency) :
  useAutoRouterSupported h && useIsWindowVisible h = false ->
  amount (routerArgumentsOf h dir url a o) = None
  /\ (useRouterTrade h dir url a o = inr INVALID_TRADE
      \/ exists c, dir = EXACT_OUTPUT
                   /\ useRouterTrade h dir url a o
                      = inl (RouterUnsupportedChain c)).
Proof.
  intros Hg.
  assert (Hs : specifiedOf h a o = None)
    by (unfold specifiedOf, debouncedAmountSpecified; now rewrite Hg).
  split; [exact Hs |].
  unfold useRouterTrade, currenciesOf. rewrite Hs.
  destruct dir; simpl.
  - left. apply resolve_absent. left.
    unfold depsOf, currenciesOf. now rewrite Hs.
  - destruct (checkChain (snd (useDebounce h (a, o)))) as [e | []] eqn:Hc.
    + right. destruct (checkChain_throws _ _ Hc) as [c [_ [-> _]]].
      now exists (chainId c).
    + left. apply resolve_absent. right.
      unfold depsOf, currenciesOf. now rewrite Hs.
Qed.

(** C8: for EXACT_INPUT [currencyIn] is the currency of the specified
    amount and [currencyOut] the other currency, and the other amount
    is the raw quote in [currencyOut]; for EXACT_OUTPUT the roles are
    swapped and the other amount is the raw quote in [currencyIn];
    without a filtered quote there is no other amount.  The other
    amount is what [fromRawAmount] returns, and its exception when it
    throws. *)
Theorem orientation_follows_tradeType
    (specified : option CurrencyAmount) (other : option Currency)
    (cIn cOut : Currency) (q : GetQuoteResult) (dir : TradeType)
    (h : Hooks) (url : option string)
    (a : option CurrencyAmount) (o : option Currency) :
  currencies EXACT_INPUT specified other
    = (option_map currency specified, other)
  /\ currencies EXACT_OUTPUT specified other
     = (other, option_map currency specified)
  /\ otherAmount EXACT_INPUT cIn cOut (Some q)
     = match fromRawAmount cOut (Quote.quote q) with
       | inr x => inr (Some x)
       | inl e => inl e
       end
  /\ otherAmount EXACT_OUTPUT cIn cOut (Some q)
     = match fromRawAmount cIn (Quote.quote q) with
       | inr x => inr (Some x)
       | inl e => inl e
       end
  /\ otherAmount dir cIn cOut None = inr None
  /\ currencyIn (depsOf h EXACT_INPUT url a o)
     = option_map currency (specifiedOf h a o)
  /\ currencyOut (depsOf h EXACT_INPUT url a o)
     = snd (useDebounce h (a, o))
  /\ currencyIn (depsOf h EXACT_OUTPUT url a o)
     = snd (useDebounce h (a, o))
  /\ currencyOut (depsOf h EXACT_OUTPUT url a o)
     = option_map currency (specifiedOf h a o).
Proof.
  split; [reflexivity |]. split; [reflexivity |].
  split; [apply otherAmount_with_quote |].
  split; [apply otherAmount_with_quote |].
  repeat split.
Qed.


(** Two renders that hand the same inputs to the resolver have the same
    outcome, whatever else differs between the hooks. *)
Lemma useRouterTrade_ext (h1 h2 : Hooks) (dir1 dir2 : TradeType)
    (url1 url2 : option string) (a1 a2 : option CurrencyAmount)
    (o1 o2 : option Currency) :
  depsOf h1 dir1 url1 a1 o1 = depsOf h2 dir2 url2 a2 o2 ->
  useRouterTrade h1 dir1 url1 a1 o1 = useRouterTrade h2 dir2 url2 a2 o2.
Proof.
  intros Hd. unfold useRouterTrade.
  assert (Hin : fst (currenciesOf h1 dir1 a1 o1)
                = fst (currenciesOf h2 dir2 a2 o2))
    by exact (f_equal currencyIn Hd).
  now rewrite Hin, Hd.
Qed.

(** C10: in every result that the resolver returns, the trade is
    present exactly when the state is VALID or SYNCING; and the
    resolver does return a result unless [fromRawAmount] throws on the
    quote. *)
Theorem trade_present_iff_VALID_or_SYNCING (d : Deps) :
  (forall r,
     resolve d = inr r ->
     (trade r <> None <-> state r = VALID \/ state r = SYNCING))
  /\ ((forall cIn cOut q,
         currencyIn d = Some cIn -> currencyOut d = Some cOut ->
         isFetching d = false -> quoteResult d = Some q ->
         exists a,
           fromRawAmount
             (match tradeType d with
              | EXACT_INPUT => cOut
              | EXACT_OUTPUT => cIn
              end)
             (Quote.quote q) = inr a) ->
      exists r, resolve d = inr r).
Proof.
  split; [| apply resolve_returns].
  intros r Hres.
  destruct (resolve_returned_shape d r Hres)
    as [-> | [-> | [-> | [[t ->] | [t ->]]]]]; simpl;
    split; intros Hs; auto; try contradiction; try discriminate;
    destruct Hs; discriminate.
Qed.

End Properties.

(** ** When each outcome is reached *)

Section Outcomes.
Context {ext : Externals}.

(** X1: the hook throws in two places and nowhere else.  It throws the
    unsupported-chain error exactly when the resolved [currencyIn] has
    a chain id that is not zero and is outside the allow-list.  Past
    the chain check it throws exactly what [fromRawAmount] throws on the
    raw amount of the filtered quote, when both currencies are there and
    no fetch is in flight.  The chain of [currencyOut], the fetcher and
    a failing transform never make it throw. *)
Theorem useRouterTrade_throws_iff (h : Hooks) (dir : TradeType)
    (url : option string) (a : option CurrencyAmount) (o : option Currency)
    (e : Exn) :
  useRouterTrade h dir url a o = inl e <->
  (exists c,
     fst (currenciesOf h dir a o) = Some c
     /\ chainId c <> 0
     /\ includes AUTO_ROUTER_SUPPORTED_CHAINS (chainId c) = false
     /\ e = RouterUnsupportedChain (chainId c))
  \/ (checkChain (fst (currenciesOf h dir a o)) = inr tt
      /\ exists cIn cOut q,
           currenciesOf h dir a o = (Some cIn, Some cOut)
           /\ queryIsFetching
                (useGetQuoteQuery h
                   (useRouterArguments h (routerArgumentsOf h dir url a o)))
              = false
           /\ filterQuote (useIsValidBlock h)
                (data
                   (useGetQuoteQuery h
                      (useRouterArguments h
                         (routerArgumentsOf h dir url a o))))
              = Some q
           /\ fromRawAmount
                (match dir with EXACT_INPUT => cOut | EXACT_OUTPUT => cIn end)
                (Quote.quote q) = inl e).
Proof.
  unfold useRouterTrade.
  destruct (checkChain (fst (currenciesOf h dir a o))) as [e' | []] eqn:Hc;
    simpl.
  - split.
    + intros [= <-]. left.
      destruct (checkChain_throws _ _ Hc) as [c [Hin [He [Hz Hl]]]].
      now exists c.
    + intros [[c [Hin [Hz [Hl ->]]]] | [Habs _]]; [| discriminate].
      rewrite Hin, (checkChain_unsupported c Hz Hl) in Hc. congruence.
  - rewrite resolve_thrown. unfold depsOf. simpl. split.
    + intros [cIn [cOut [q [Hin [Hout [Hf [Hq He]]]]]]]. right.
      split; [reflexivity |]. exists cIn, cOut, q.
      repeat split; try assumption.
      destruct (currenciesOf h dir a o). simpl in *. congruence.
    + intros [[c [Hin [Hz [Hl _]]]] | [_ [cIn [cOut [q [Hp [Hf [Hq He]]]]]]]].
      * rewrite Hin, (checkChain_unsupported c Hz Hl) in Hc. discriminate.
      * exists cIn, cOut, q. rewrite Hp. now repeat split.
Qed.

(** X2: the resolver returns a trade exactly when both currencies are
    there, no fetch is in flight, the fetch did not fail, there is a
    quote on whose raw amount [fromRawAmount] returns, a non-empty route
    and a request, and the transform succeeds; the trade is the one the
    transform built from the route, and the state is SYNCING or VALID
    after the syncing flag. *)
Theorem trade_returned_iff (d : Deps) (s : TradeState) (t : Trade) :
  resolve d = inr {| state := s; trade := Some t |} <->
  exists cIn cOut q a l,
    currencyIn d = Some cIn /\ currencyOut d = Some cOut
    /\ isFetching d = false /\ isError d = false
    /\ quoteResult d = Some q
    /\ fromRawAmount
         (match tradeType d with EXACT_INPUT => cOut | EXACT_OUTPUT => cIn end)
         (Quote.quote q) = inr a
    /\ route d = Some l /\ l <> []
    /\ isNone (queryArgs d) = false
    /\ transformRoutesToTrade l (tradeType d) (gasUseEstimateUSD d) = inr t
    /\ s = (if isSyncing d then SYNCING else VALID).
Proof.
  split; [apply resolve_trade_inversion |].
  intros [cIn [cOut [q [a [l [Hin [Hout [Hf [He [Hq [Ha [Hr [Hl [Hk
            [Ht ->]]]]]]]]]]]]]]].
  assert (Hn : noRoute (route d) = false)
    by (apply noRoute_false_iff; now exists l).
  rewrite (resolve_transform d cIn cOut a l); try assumption.
  - now rewrite Ht.
  - now rewrite Hq, otherAmount_with_quote, Ha.
Qed.

(** X3: the state is LOADING exactly when both currencies are there and
    a fetch is in flight: an error, a stale or missing quote, an empty
    route or a missing request do not take the state away from LOADING,
    and nothing else leads to it. *)
Theorem LOADING_iff (d : Deps) :
  (exists r, resolve d = inr r /\ state r = LOADING) <->
  isNone (currencyIn d) = false /\ isNone (currencyOut d) = false
  /\ isFetching d = true.
Proof.
  rewrite resolve_table. split.
  - intros [r [H Hs]]. revert H.
    destruct (currencyIn d) as [cIn|]; [| intros [= <-]; discriminate].
    destruct (currencyOut d) as [cOut|]; [| intros [= <-]; discriminate].
    destruct (isFetching d); [now repeat split |].
    destruct (otherAmount (tradeType d) cIn cOut (quoteResult d))
      as [e | other]; [discriminate |].
    destruct (isError d || isNone other || noRoute (route d)
              || isNone (queryArgs d));
      [intros [= <-]; discriminate |].
    destruct (transformRoutesToTrade _ _ _); intros [= <-];
      try discriminate.
    simpl in Hs. destruct (isSyncing d); discriminate.
  - intros [Hin [Hout ->]].
    destruct (currencyIn d); [| discriminate].
    destruct (currencyOut d); [| discriminate].
    eexists. split; reflexivity.
Qed.

(** X4: the state is NO_ROUTE_FOUND exactly when both currencies are
    there, no fetch is in flight, [fromRawAmount] did not throw on the
    quote, if there is one, and the fetch failed or the quote is missing
    or the route is missing or empty or the request is missing. *)
Theorem NO_ROUTE_FOUND_iff (d : Deps) :
  (exists r, resolve d = inr r /\ state r = NO_ROUTE_FOUND) <->
  exists cIn cOut other,
    currencyIn d = Some cIn /\ currencyOut d = Some cOut
    /\ isFetching d = false
    /\ otherAmount (tradeType d) cIn cOut (quoteResult d) = inr other
    /\ isError d || isNone (quoteResult d) || noRoute (route d)
       || isNone (queryArgs d) = true.
Proof.
  rewrite resolve_table. split.
  - intros [r [H Hs]]. revert H.
    destruct (currencyIn d) as [cIn|]; [| intros [= <-]; discriminate].
    destruct (currencyOut d) as [cOut|]; [| intros [= <-]; discriminate].
    destruct (isFetching d); [intros [= <-]; discriminate |].
    destruct (otherAmount (tradeType d) cIn cOut (quoteResult d))
      as [e | other] eqn:Ho; [discriminate |].
    rewrite (otherAmount_returned _ _ _ _ _ Ho).
    destruct (isError d || isNone (quoteResult d) || noRoute (route d)
              || isNone (queryArgs d)) eqn:Hg.
    + intros _. exists cIn, cOut, other. now repeat split.
    + destruct (transformRoutesToTrade _ _ _); intros [= <-];
        try discriminate.
      simpl in Hs. destruct (isSyncing d); discriminate.
  - intros [cIn [cOut [other [-> [-> [-> [Ho Hg]]]]]]].
    rewrite Ho, (otherAmount_returned _ _ _ _ _ Ho), Hg.
    eexists. split; reflexivity.
Qed.

(** X5: the state is INVALID exactly when a currency is missing, or
    when the construction step is reached (no fetch in flight, an other
    amount that [fromRawAmount] returned, none of the conditions of
    NO_ROUTE_FOUND) and the transform throws. *)
Theorem INVALID_iff (d : Deps) :
  (exists r, resolve d = inr r /\ state r = INVALID) <->
  isNone (currencyIn d) || isNone (currencyOut d) = true
  \/ exists cIn cOut a l e,
       currencyIn d = Some cIn /\ currencyOut d = Some cOut
       /\ isFetching d = false
       /\ otherAmount (tradeType d) cIn cOut (quoteResult d) = inr (Some a)
       /\ isError d = false
       /\ route d = Some l /\ l <> []
       /\ isNone (queryArgs d) = false
       /\ transformRoutesToTrade l (tradeType d) (gasUseEstimateUSD d)
          = inl e.
Proof.
  split.
  - rewrite resolve_table. intros [r [H Hs]]. revert H.
    destruct (currencyIn d) as [cIn|]; [| now left].
    destruct (currencyOut d) as [cOut|]; [| now left].
    destruct (isFetching d); [intros [= <-]; discriminate |].
    destruct (otherAmount (tradeType d) cIn cOut (quoteResult d))
      as [e | other] eqn:Ho; [discriminate |].
    destruct (isError d || isNone other || noRoute (route d)
              || isNone (queryArgs d)) eqn:Hg;
      [intros [= <-]; discriminate |].
    repeat (apply orb_false_iff in Hg; destruct Hg as [Hg ?]).
    destruct other as [a|]; [| discriminate].
    apply noRoute_false_iff in H0. destruct H0 as [l [Hr Hl]]. rewrite Hr.
    destruct (transformRoutesToTrade l _ _) as [e | t] eqn:Ht.
    + intros _. right. exists cIn, cOut, a, l, e. now repeat split.
    + intros [= <-]. simpl in Hs. destruct (isSyncing d); discriminate.
  - intros [Habs | [cIn [cOut [a [l [e [Hin [Hout [Hf [Ho [He [Hr [Hl
                      [Hk Ht]]]]]]]]]]]]]].
    + exists INVALID_TRADE. split; [| reflexivity].
      apply resolve_absent. apply orb_true_iff in Habs.
      destruct Habs as [H | H]; [left | right];
        [destruct (currencyIn d) | destruct (currencyOut d)];
        try discriminate; reflexivity.
    + exists INVALID_TRADE. split; [| reflexivity].
      assert (Hn : noRoute (route d) = false)
        by (apply noRoute_false_iff; now exists l).
      rewrite (resolve_transform d cIn cOut a l) by assumption.
      now rewrite Ht.
Qed.

(** X7: with the gate closed (the window hidden or the auto router not
    supported) an exact-input render is INVALID with no trade and never
    throws, whatever the amount and the currencies.  An exact-output
    render throws the unsupported-chain error when the other currency,
    which is then [currencyIn], has a chain id that is not zero and is
    outside the allow-list, and is INVALID with no trade in every other
    case. *)
Theorem closed_gate_outcome (h : Hooks) (dir : TradeType)
    (url : option string) (a : option CurrencyAmount) (o : option Currency) :
  useAutoRouterSupported h && useIsWindowVisible h = false ->
  match dir with
  | EXACT_INPUT => useRouterTrade h dir url a o = inr INVALID_TRADE
  | EXACT_OUTPUT =>
      (forall c,
         snd (useDebounce h (a, o)) = Some c ->
         chainId c <> 0 ->
         includes AUTO_ROUTER_SUPPORTED_CHAINS (chainId c) = false ->
         useRouterTrade h dir url a o
         = inl (RouterUnsupportedChain (chainId c)))
      /\ (snd (useDebounce h (a, o)) = None
          \/ (exists c,
                snd (useDebounce h (a, o)) = Some c
                /\ (chainId c = 0
                    \/ includes AUTO_ROUTER_SUPPORTED_CHAINS (chainId c)
                       = true)) ->
          useRouterTrade h dir url a o = inr INVALID_TRADE)
  end.
Proof.
  intros Hg.
  assert (Hs : specifiedOf h a o = None)
    by (unfold specifiedOf, debouncedAmountSpecified; now rewrite Hg).
  assert (Hout : forall d', currencyOut (depsOf h EXACT_OUTPUT d' a o) = None)
    by (intros d'; unfold depsOf, currenciesOf; now rewrite Hs).
  unfold useRouterTrade, currenciesOf. rewrite Hs.
  destruct dir; simpl.
  - apply resolve_absent. left. unfold depsOf, currenciesOf. now rewrite Hs.
  - split.
    + intros c Hc Hz Hl. now rewrite Hc, (checkChain_unsupported c Hz Hl).
    + intros Hpass.
      assert (Hc : checkChain (snd (useDebounce h (a, o))) = inr tt).
      { apply checkChain_passes_when. exact Hpass. }
      rewrite Hc. simpl. apply resolve_absent. right. apply Hout.
Qed.

(** X6: every trade the hook returns is backed by the fetcher: there is
    a request, no fetch is in flight for it and none failed, the fetcher
    holds a quote whose block the oracle accepts, the routes computed
    from that quote are not empty and the trade is what the transform
    makes of them; the state is VALID when the quote is the result of
    the current request and SYNCING when it is not. *)
Theorem returned_trade_is_backed (h : Hooks) (dir : TradeType)
    (url : option string) (a : option CurrencyAmount) (o : option Currency)
    (r : TradeResult) (t : Trade) :
  useRouterTrade h dir url a o = inr r -> trade r = Some t ->
  exists (key : QueryArgs) (q : GetQuoteResult) (l : list Route),
    useRouterArguments h (routerArgumentsOf h dir url a o) = Some key
    /\ queryIsFetching (useGetQuoteQuery h (Some key)) = false
    /\ queryIsError (useGetQuoteQuery h (Some key)) = false
    /\ data (useGetQuoteQuery h (Some key)) = Some q
    /\ useIsValidBlock h (blockNumberOrZero (Some q)) = true
    /\ computeRoutes (fst (currenciesOf h dir a o))
         (snd (currenciesOf h dir a o)) dir (Some q) = Some l
    /\ l <> []
    /\ transformRoutesToTrade l dir
         (useStablecoinAmountFromFiatValue h
            (Some (Quote.gasUseEstimateUSD q))) = inr t
    /\ state r
       = (if strictNotEqual (currentData (useGetQuoteQuery h (Some key)))
                            (Some q)
          then SYNCING else VALID).
Proof.
  unfold useRouterTrade.
  destruct (checkChain (fst (currenciesOf h dir a o))) as [e | []];
    [discriminate |].
  simpl. intros Hres Ht. destruct r as [s t']. simpl in Ht. subst t'.
  apply resolve_trade_inversion in Hres.
  destruct Hres as [cIn [cOut [q' [x [l [_ [_ [Hf [He [Hq [_ [Hr [Hl [Hk
                      [Htr Hs]]]]]]]]]]]]]]].
  unfold depsOf in *. simpl in *.
  destruct (useRouterArguments h (routerArgumentsOf h dir url a o))
    as [key|]; [| discriminate].
  unfold filterQuote in *.
  destruct (data (useGetQuoteQuery h (Some key))) as [q|] eqn:Hd.
  - destruct (useIsValidBlock h (blockNumberOrZero (Some q))) eqn:Hb;
      [| discriminate].
    injection Hq as <-.
    exists key, q, l. simpl in *. repeat split; assumption.
  - destruct (useIsValidBlock h (blockNumberOrZero None)); discriminate.
Qed.

End Outcomes.
(** ** The input field *)

Section InputProperties.
Context {ops : AmountOps}.

(** X8: a maximum is offered exactly when there is a balance, the
    spendable maximum of it is defined, is not zero, does not exceed the
    balance and is not the amount already in the field; what is offered
    is the exact text of that maximum. *)
Theorem max_offered_iff (h : Input.Hooks) (s : string) :
  Input.max h = Some s <->
  exists b m,
    Input.balance h = Some b
    /\ maxAmountSpend (Some b) = Some m
    /\ equalTo m (ANumber 0) = false
    /\ lessThan b m = false
    /\ (forall i, Input.inputCurrencyAmount h = Some i ->
                  equalTo m (AnAmount i) = false)
    /\ s = toExact m.
Proof.
  unfold Input.max. split.
  - destruct (Input.balance h) as [b|];
      [| destruct (maxAmountSpend None); discriminate].
    destruct (maxAmountSpend (Some b)) as [m|] eqn:Hm; [| discriminate].
    destruct (equalTo m (ANumber 0)) eqn:Hz; [discriminate |].
    destruct (lessThan b m) eqn:Hl; [discriminate |]. simpl.
    destruct (Input.inputCurrencyAmount h) as [i|].
    + destruct (equalTo m (AnAmount i)) eqn:He; [discriminate |].
      intros [= <-]. exists b, m.
      repeat split; try assumption; congruence.
    + intros [= <-]. exists b, m.
      repeat split; try assumption; congruence.
  - intros [b [m [-> [-> [-> [-> [Hi ->]]]]]]]. simpl.
    destruct (Input.inputCurrencyAmount h) as [i|]; [| reflexivity].
    now rewrite (Hi i eq_refl).
Qed.

(** X9: the Max button is on the screen exactly when a click on it goes
    through: the invariant of the click handler fails only for a
    maximum that is undefined or the empty text, and then there is no
    button.  A click that goes through sets the field to the maximum
    and focuses the token input when its handle is there. *)
Theorem max_button_iff_click_returns (h : Input.Hooks) :
  ((exists row, Input.balanceRow (Input.render h) = Some row
                /\ Input.maxButton row = true)
   <-> exists effects, Input.onClickMax h = inr effects)
  /\ (forall effects,
        Input.onClickMax h = inr effects ->
        exists s,
          Input.max h = Some s /\ s <> EmptyString
          /\ effects = Input.UpdateInputAmount s
                       :: (if Input.input h then [Input.Focus] else [])).
Proof.
  assert (Hb : Input.truthy (Input.max h) = true ->
               exists b, Input.balance h = Some b).
  { unfold Input.max. destruct (Input.balance h) as [b|]; [now exists b |].
    destruct (maxAmountSpend None); discriminate. }
  unfold Input.onClickMax, Input.invariant, Input.render. simpl.
  destruct (Input.truthy (Input.max h)) eqn:Ht; simpl.
  - destruct (Hb eq_refl) as [b Hbal]. rewrite Hbal. split.
    + split; intros _; eexists; [reflexivity |].
      split; reflexivity.
    + intros effects [= <-].
      destruct (Input.max h) as [[|c s]|]; try discriminate.
      exists (String c s). repeat split. discriminate.
  - split.
    + split.
      * intros [row [Hrow Hm]].
        destruct (Input.balance h); [| discriminate].
        injection Hrow as <-. simpl in Hm. congruence.
      * intros [effects Habs]. discriminate.
    + intros effects Habs. discriminate.
Qed.

(** X10: the balance is shown in the error colour exactly when the amount
    in the field exceeds it or, with no amount in the field, the amount
    of the trade exceeds it: the amount in the field takes precedence
    over the amount of the trade, and without a balance there is no
    balance row at all. *)
Theorem balance_in_error_colour_iff (h : Input.Hooks) :
  ((exists row, Input.balanceRow (Input.render h) = Some row
                /\ Input.balanceColor row = Input.ColorError)
   <-> exists b,
         Input.balance h = Some b
         /\ ((exists i, Input.inputCurrencyAmount h = Some i
                        /\ greaterThan i b = true)
             \/ (Input.inputCurrencyAmount h = None
                 /\ exists t, Input.tradeCurrencyAmount h = Some t
                              /\ greaterThan t b = true)))
  /\ (Input.balance h = None <-> Input.balanceRow (Input.render h) = None).
Proof.
  unfold Input.render, Input.insufficientBalance. simpl.
  destruct (Input.balance h) as [b|]; simpl.
  - split; [| split; discriminate]. split.
    + intros [row [[= <-] Hc]]. simpl in Hc. exists b. split; [reflexivity |].
      destruct (Input.inputCurrencyAmount h) as [i|].
      * left. exists i. split; [reflexivity |].
        destruct (greaterThan i b); [reflexivity | discriminate].
      * right. split; [reflexivity |].
        destruct (Input.tradeCurrencyAmount h) as [t|]; [| discriminate].
        exists t. split; [reflexivity |].
        destruct (greaterThan t b); [reflexivity | discriminate].
    + intros [b' [[= <-] [[i [-> Hg]] | [-> [t [-> Hg]]]]]];
        rewrite Hg; eexists; split; reflexivity.
  - split; [| now split]. split.
    + intros [row [Habs _]]. discriminate.
    + intros [b [Habs _]]. discriminate.
Qed.

(** X11: what the rendered field keeps: an error disables the token input,
    switches hovering off and marks the price row as loading; the token
    input is marked as loading only together with the price row and
    never for the independent field; and without an error the price row
    is marked as loading exactly in state LOADING. *)
Theorem render_loading_and_disabling (h : Input.Hooks) :
  let v := Input.render h in
  (Input.tokenDisabled v = true <-> Input.error h <> None)
  /\ (Input.tokenDisabled v = true ->
      Input.disableHover v = true /\ Input.usdcLoading v = true)
  /\ (Input.tokenLoading v = true -> Input.usdcLoading v = true)
  /\ (Input.useIsSwapFieldIndependent h = true -> Input.tokenLoading v = false)
  /\ (Input.error h = None ->
      (Input.usdcLoading v = true <-> Input.tradeState h = LOADING)).
Proof.
  unfold Input.render, Input.isLoading, Input.isRouteLoading,
    Input.isDependentField, Input.isDisabled. simpl.
  destruct (Input.error h) as [e|],
    (Input.useIsSwapFieldIndependent h), (Input.tradeState h); simpl;
    repeat split; intros; try reflexivity; try discriminate;
    try congruence; try (now destruct (Input.inputCurrency h)).
Qed.

End InputProperties.

(** ** Runs in the concrete world *)

Section Runs.
#[local] Existing Instance Sample.world.
Import Sample.

(** C1: the key changes from K1, whose result is on display, to K2,
    whose fetch is in flight.  The inputs of the resolver then have the
    syncing flag and the fetching flag both set and the quote of K1 at
    hand, and the resolver answers LOADING with no trade, not
    SYNCING. *)
Theorem refetch_after_key_change_is_LOADING :
  let h := hooks true true (refetching quoteK1) (fun _ => true) in
  let d := depsOf h EXACT_INPUT None (Some oneWETH) (Some USDC) in
  isSyncing d = true
  /\ isFetching d = true
  /\ quoteResult d = Some quoteK1
  /\ isNone (queryArgs d) = false
  /\ resolve d = inr {| state := LOADING; trade := None |}
  /\ useRouterTrade h EXACT_INPUT None (Some oneWETH) (Some USDC)
     = inr {| state := LOADING; trade := None |}.
Proof. repeat split. Qed.

(** Once the fetching flag is down the same inputs resolve to SYNCING
    with the trade built from the quote of K1. *)
Example syncing_needs_no_fetch_in_flight :
  resolve (deps false true (Some quoteK1) (Some keyK2))
  = inr {| state := SYNCING;
           trade := Some {| legs := ["WETH/USDC 0.05%"%string];
                            kind := EXACT_INPUT; gas := None |} |}.
Proof. reflexivity. Qed.

(** A quote whose raw amount is not an integer makes the hook throw,
    on a supported chain and outside the [try]. *)
Example fraction_quote_throws :
  let h := hooks true true (settled quoteFraction) (fun _ => true) in
  useRouterTrade h EXACT_INPUT None (Some oneWETH) (Some USDC)
  = inl (Thrown "Cannot convert to a BigInt").
Proof. reflexivity. Qed.

Lemma absent_currency_is_INVALID_witness :
  let d := {| currencyIn := Some WETH; currencyOut := None;
              quoteResult := Some quoteK1; isFetching := true;
              tradeType := EXACT_OUTPUT; isError := true;
              route := Some ["WETH/USDC 0.05%"%string];
              queryArgs := Some keyK2; gasUseEstimateUSD := None;
              isSyncing := true |} in
  resolve d = inr {| state := INVALID; trade := None |}.
Proof.
  intros d. apply (absent_currency_is_INVALID d). right. reflexivity.
Defined.

(** Both sides of the pair are the same token: the request is absent,
    the fetcher is at rest and keeps the quote of K1. *)
Lemma no_request_is_NO_ROUTE_FOUND_or_INVALID_witness :
  let h := hooks true true (settled quoteK1) (fun _ => true) in
  let r := {| state := NO_ROUTE_FOUND; trade := None |} in
  useRouterArguments h
    (routerArgumentsOf h EXACT_INPUT None (Some oneWETH) (Some WETH)) = None
  /\ queryIsFetching (useGetQuoteQuery h None) = false
  /\ useRouterTrade h EXACT_INPUT None (Some oneWETH) (Some WETH) = inr r
  /\ (state r = NO_ROUTE_FOUND \/ state r = INVALID)
  /\ trade r = None.
Proof.
  intros h r. split; [reflexivity |]. split; [reflexivity |].
  split; [reflexivity |].
  apply (proj1 (no_request_is_NO_ROUTE_FOUND_or_INVALID h EXACT_INPUT None
                  (Some oneWETH) (Some WETH) eq_refl eq_refl) r).
  reflexivity.
Defined.

Lemma transform_failure_is_INVALID_witness :
  let d := deps false false (Some quoteBad) (Some keyK2) in
  transformRoutesToTrade ["malformed"%string] EXACT_INPUT None
    = inl (Thrown "malformed route")
  /\ resolve d = inr {| state := INVALID; trade := None |}.
Proof.
  intros d. split; [reflexivity |].
  apply (proj2 (transform_failure_is_INVALID d WETH USDC
                  {| currency := USDC; numerator := 1850000000;
                     denominator := 1 |}
                  ["malformed"%string]
                  eq_refl eq_refl eq_refl eq_refl eq_refl eq_refl eq_refl
                  eq_refl)
           (Thrown "malformed route")).
  reflexivity.
Defined.

(** C5: a currency whose chain id is the number zero is outside the
    allow-list, and the hook does not throw for it: the request is
    built, the fetcher consulted and the quote resolved. *)
Theorem zero_chain_is_not_rejected :
  let h := hooks true true (settled quoteK1) (fun _ => true) in
  fst (currenciesOf h EXACT_INPUT (Some oneNIL) (Some USDC)) = Some NIL
  /\ includes AUTO_ROUTER_SUPPORTED_CHAINS (chainId NIL) = false
  /\ isNone (useRouterArguments h
               (routerArgumentsOf h EXACT_INPUT None (Some oneNIL)
                  (Some USDC))) = false
  /\ useRouterTrade h EXACT_INPUT None (Some oneNIL) (Some USDC)
     = inr {| state := VALID;
              trade := Some {| legs := ["WETH/USDC 0.05%"%string];
                               kind := EXACT_INPUT; gas := None |} |}.
Proof. repeat split. Qed.

(** The same render with a token on chain 56 throws. *)
Example unsupported_chain_throws_run :
  let h := hooks true true (settled quoteK1) (fun _ => true) in
  useRouterTrade h EXACT_INPUT None (Some oneCAKE) (Some USDC)
  = inl (RouterUnsupportedChain 56).
Proof.
  intros h.
  apply (unsupported_chain_throws h EXACT_INPUT None (Some oneCAKE)
           (Some USDC) CAKE);
    [reflexivity | simpl; lia | reflexivity].
Qed.

Lemma stale_block_is_NO_ROUTE_FOUND_witness :
  let oracle := fun b : Z => negb (b =? 1000) in
  let d := deps false false (filterQuote oracle (Some quoteK1))
             (Some keyK2) in
  Number (Quote.blockNumber quoteK1) = Some 1000
  /\ filterQuote oracle (Some quoteK1) = None
  /\ resolve d = inr {| state := NO_ROUTE_FOUND; trade := None |}.
Proof.
  intros oracle d. split; [reflexivity |].
  apply (stale_block_is_NO_ROUTE_FOUND oracle quoteK1 d WETH USDC);
    reflexivity.
Defined.


Lemma trade_present_iff_VALID_or_SYNCING_witness :
  let d := deps false true (Some quoteK1) (Some keyK2) in
  let r := {| state := SYNCING;
              trade := Some {| legs := ["WETH/USDC 0.05%"%string];
                               kind := EXACT_INPUT; gas := None |} |} in
  resolve d = inr r
  /\ (trade r <> None <-> state r = VALID \/ state r = SYNCING).
Proof.
  intros d r. split; [reflexivity |].
  apply (proj1 (trade_present_iff_VALID_or_SYNCING d) r). reflexivity.
Defined.

(** A hidden window with an exact-output trade paid in a token on a
    chain the router does not know. *)
Lemma closed_gate_outcome_witness :
  let h := hooks true false (settled quoteK1) (fun _ => true) in
  useAutoRouterSupported h && useIsWindowVisible h = false
  /\ useRouterTrade h EXACT_OUTPUT None (Some oneWETH) (Some CAKE)
     = inl (RouterUnsupportedChain 56)
  /\ useRouterTrade h EXACT_OUTPUT None (Some oneWETH) (Some USDC)
     = inr INVALID_TRADE
  /\ useRouterTrade h EXACT_INPUT None (Some oneCAKE) (Some USDC)
     = inr INVALID_TRADE.
Proof.
  intros h. split; [reflexivity |]. split; [| split].
  - apply (proj1 (closed_gate_outcome h EXACT_OUTPUT None (Some oneWETH)
                    (Some CAKE) eq_refl) CAKE);
      [reflexivity | simpl; lia | reflexivity].
  - apply (proj2 (closed_gate_outcome h EXACT_OUTPUT None (Some oneWETH)
                    (Some USDC) eq_refl)).
    right. exists USDC. split; [reflexivity |]. right. reflexivity.
  - apply (closed_gate_outcome h EXACT_INPUT None (Some oneCAKE)
             (Some USDC) eq_refl).
Defined.

Lemma returned_trade_is_backed_witness :
  let h := hooks true true (settled quoteK1) (fun _ => true) in
  let t : Trade := {| legs := ["WETH/USDC 0.05%"%string];
                      kind := EXACT_INPUT; gas := None |} in
  exists (key : QueryArgs) (q : GetQuoteResult) (l : list Route),
    useRouterArguments h
      (routerArgumentsOf h EXACT_INPUT None (Some oneWETH) (Some USDC))
    = Some key
    /\ queryIsFetching (useGetQuoteQuery h (Some key)) = false
    /\ queryIsError (useGetQuoteQuery h (Some key)) = false
    /\ data (useGetQuoteQuery h (Some key)) = Some q
    /\ useIsValidBlock h (blockNumberOrZero (Some q)) = true
    /\ computeRoutes
         (fst (currenciesOf h EXACT_INPUT (Some oneWETH) (Some USDC)))
         (snd (currenciesOf h EXACT_INPUT (Some oneWETH) (Some USDC)))
         EXACT_INPUT (Some q) = Some l
    /\ l <> []
    /\ transformRoutesToTrade l EXACT_INPUT
         (useStablecoinAmountFromFiatValue h
            (Some (Quote.gasUseEstimateUSD q))) = inr t
    /\ VALID
       = (if strictNotEqual (currentData (useGetQuoteQuery h (Some key)))
                            (Some q)
          then SYNCING else VALID).
Proof.
  intros h t.
  apply (returned_trade_is_backed h EXACT_INPUT None (Some oneWETH)
           (Some USDC) {| state := VALID; trade := Some t |} t);
    reflexivity.
Defined.

End Runs.
